(** * Mars rover navigation core (rover.py)

    A shallow embedding of the direction classes, the grid, the rover and
    the command classes of [rover.py], followed by the properties of the
    navigation state machine.

    Python integers are unbounded, so every [int] is a [Z].  The rover is a
    mutable object and the rich console is a module-level global: both live
    in a [World] that the methods thread through a small state-and-exception
    monad [Py]. *)

From Stdlib Require Import ZArith Lia.
From stdpp Require Import gmap strings list pretty.

Local Open Scope Z_scope.

(** ** Direction classes *)

(** The four concrete subclasses of the abstract class [Direction].  The
    objects carry no fields, so an instance is its class. *)
Inductive Direction := North | East | South | West.

#[global] Instance Direction_eq_dec : EqDecision Direction.
Proof. solve_decision. Defined.

Module Direction.

(** [move_forward(self, x, y)] of each subclass. *)
Definition move_forward (d : Direction) (x y : Z) : Z * Z :=
  match d with
  | North => (x, y + 1)
  | East => (x + 1, y)
  | South => (x, y - 1)
  | West => (x - 1, y)
  end.

(** [turn_left(self)] of each subclass. *)
Definition turn_left (d : Direction) : Direction :=
  match d with
  | North => West
  | East => North
  | South => East
  | West => South
  end.

(** [turn_right(self)] of each subclass. *)
Definition turn_right (d : Direction) : Direction :=
  match d with
  | North => East
  | East => South
  | South => West
  | West => North
  end.

(** [__str__(self)] of each subclass. *)
Definition str (d : Direction) : string :=
  match d with
  | North => "North"
  | East => "East"
  | South => "South"
  | West => "West"
  end.

End Direction.

(** ** Grid *)

Record Grid := mkGrid {
  width : Z;
  height : Z;
  obstacles : list (Z * Z)
}.

Module Grid.

(** [Grid.__init__]: [obstacles] defaults to [None], and
    [obstacles or []] turns [None] into the empty list (and keeps any
    other list, the empty one included, as it is). *)
Definition init (width height : Z) (obstacles : option (list (Z * Z))) : Grid :=
  mkGrid width height (default [] obstacles).

(** [(x, y) in self.obstacles]: membership in a Python list. *)
Definition has_obstacle (self : Grid) (x y : Z) : bool :=
  bool_decide ((x, y) ∈ obstacles self).

(** [0 <= x < self.width and 0 <= y < self.height]. *)
Definition is_valid_position (self : Grid) (x y : Z) : bool :=
  (0 <=? x) && (x <? width self) && ((0 <=? y) && (y <? height self)).

End Grid.

(** ** Rover object, console and the method monad *)

Record Rover := mkRover {
  x : Z;
  y : Z;
  direction : Direction;
  grid : Grid;
  path_history : list (Z * Z);
  command_count : Z
}.

(** What a method call can see and change: the rover it is called on and
    the lines printed so far on the global [console]. *)
Record World := mkWorld {
  rover : Rover;
  console : list string
}.

Inductive Exn := KeyError (key : string).

Inductive Res (A : Type) :=
| Ok (a : A)
| Raise (e : Exn).
Arguments Ok {A} a.
Arguments Raise {A} e.

Definition Py (A : Type) : Type := World → Res (A * World).

Definition py_ret {A} (a : A) : Py A := λ w, Ok (a, w).

Definition py_bind {A B} (m : Py A) (k : A → Py B) : Py B :=
  λ w, match m w with
       | Ok (a, w') => k a w'
       | Raise e => Raise e
       end.

(** [Py] is a monad in stdpp's sense, which gives its methods the
    [v ← m; k] and [m;; k] notations. *)
#[global] Instance Py_ret : MRet Py := @py_ret.
#[global] Instance Py_bind : MBind Py := λ A B k m, py_bind m k.

(** Reading [self]. *)
Definition get_self : Py Rover := λ w, Ok (rover w, w).

(** Attribute assignments on [self]. *)
Definition set_xy (new_x new_y : Z) : Py unit :=
  λ w, let r := rover w in
       Ok (tt, mkWorld (mkRover new_x new_y (direction r) (grid r)
                          (path_history r) (command_count r)) (console w)).

Definition set_direction (d : Direction) : Py unit :=
  λ w, let r := rover w in
       Ok (tt, mkWorld (mkRover (x r) (y r) d (grid r)
                          (path_history r) (command_count r)) (console w)).

(** [self.path_history.append(p)]. *)
Definition path_history_append (p : Z * Z) : Py unit :=
  λ w, let r := rover w in
       Ok (tt, mkWorld (mkRover (x r) (y r) (direction r) (grid r)
                          (path_history r ++ [p]) (command_count r)) (console w)).

(** [self.command_count += 1]. *)
Definition incr_command_count : Py unit :=
  λ w, let r := rover w in
       Ok (tt, mkWorld (mkRover (x r) (y r) (direction r) (grid r)
                          (path_history r) (command_count r + 1)) (console w)).

(** [console.print(line)]. *)
Definition console_print (line : string) : Py unit :=
  λ w, Ok (tt, mkWorld (rover w) (console w ++ [line])).

Definition warn_boundary : string :=
  "[yellow]! Warning: Cannot move - grid boundary![/yellow]".
Definition warn_obstacle : string :=
  "[yellow]! Warning: Cannot move - obstacle detected![/yellow]".

(** The [get_status] dictionary. *)
Record Status := mkStatus {
  position : Z * Z;
  status_direction : string;
  commands_executed : Z;
  cells_visited : Z
}.

Module Rover.

(** [Rover.__init__]. *)
Definition init (x y : Z) (direction : Direction) (grid : Grid) : Rover :=
  mkRover x y direction grid [(x, y)] 0.

(** [Rover.move_forward]. *)
Definition move_forward : Py bool :=
  self ← get_self;
  let '(new_x, new_y) := Direction.move_forward (direction self) (x self) (y self) in
  if negb (Grid.is_valid_position (grid self) new_x new_y) then
    console_print warn_boundary;;
    mret false
  else if Grid.has_obstacle (grid self) new_x new_y then
    console_print warn_obstacle;;
    mret false
  else
    set_xy new_x new_y;;
    self ← get_self;
    path_history_append (x self, y self);;
    incr_command_count;;
    mret true.

(** [Rover.turn_left]. *)
Definition turn_left : Py unit :=
  self ← get_self;
  set_direction (Direction.turn_left (direction self));;
  incr_command_count.

(** [Rover.turn_right]. *)
Definition turn_right : Py unit :=
  self ← get_self;
  set_direction (Direction.turn_right (direction self));;
  incr_command_count.

(** [Rover.get_status]: reads the rover only.
    ["cells_visited"] is [len(set(self.path_history))]. *)
Definition get_status (self : Rover) : Status :=
  mkStatus (x self, y self)
           (Direction.str (direction self))
           (command_count self)
           (Z.of_nat (size (list_to_set (path_history self) : gset (Z * Z)))).

End Rover.

(** ** Command classes *)

Inductive Command := MoveForward | TurnLeft | TurnRight.

Module Command.

(** [execute(self, rover)]: the result of [rover.move_forward()] is
    dropped, every [execute] returns [None]. *)
Definition execute (c : Command) : Py unit :=
  match c with
  | MoveForward => Rover.move_forward;; mret tt
  | TurnLeft => Rover.turn_left
  | TurnRight => Rover.turn_right
  end.

End Command.

(** The driver loop of [demo.py] (and of [main] without telemetry and
    rendering): [for cmd in commands: cmd.execute(rover)]. *)
Fixpoint run_commands (commands : list Command) : Py unit :=
  match commands with
  | [] => mret tt
  | cmd :: rest => Command.execute cmd;; run_commands rest
  end.

(** ** Configuration and [initialize_rover] *)

Module Config.

(** The ["grid"] and ["rover"] sections of the configuration dictionary.
    A key that may be missing is an [option]; [d.get(k, v)] is
    [default v]. *)
Record GridSection := mkGridSection {
  width : option Z;
  height : option Z;
  obstacles : option (list (Z * Z))
}.

Record RoverSection := mkRoverSection {
  start_x : option Z;
  start_y : option Z;
  start_direction : option string
}.

Record t := mk {
  grid : option GridSection;
  rover : option RoverSection
}.

(** The empty dictionary [{}] that [config.get(section, {})] falls back
    to. *)
Definition empty_grid : GridSection := mkGridSection None None None.
Definition empty_rover : RoverSection := mkRoverSection None None None.

End Config.

(** The [direction_map] dictionary literal of [initialize_rover]. *)
Definition direction_map : gmap string Direction :=
  <["N" := North]> (<["E" := East]> (<["S" := South]> (<["W" := West]> ∅))).

(** [initialize_rover(config)].  Subscripting [direction_map] with a key it
    does not hold raises [KeyError].  [tuple(obs)] only changes the
    container of a coordinate pair, and the [logging.info] line is written
    after the rover is built and does not reach the returned value: neither
    is represented. *)
Definition initialize_rover (config : Config.t) : Res Rover :=
  let grid_config := default Config.empty_grid (Config.grid config) in
  let rover_config := default Config.empty_rover (Config.rover config) in
  let obstacles := default [] (Config.obstacles grid_config) in
  let grid := Grid.init (default 10 (Config.width grid_config))
                        (default 10 (Config.height grid_config))
                        (Some obstacles) in
  let x := default 0 (Config.start_x rover_config) in
  let y := default 0 (Config.start_y rover_config) in
  let key := default "N" (Config.start_direction rover_config) in
  match direction_map !! key with
  | Some direction => Ok (Rover.init x y direction grid)
  | None => Raise (KeyError key)
  end.

(** ** Vocabulary of the properties *)

(** The cell [move_forward] tries to enter. *)
Definition candidate (self : Rover) : Z * Z :=
  Direction.move_forward (direction self) (x self) (y self).

(** The two guards of [move_forward], taken together. *)
Definition blocked (self : Rover) : bool :=
  negb (Grid.is_valid_position (grid self) (candidate self).1 (candidate self).2)
  || Grid.has_obstacle (grid self) (candidate self).1 (candidate self).2.

(** [n] calls of [rover.move_forward()] in a row, with their results. *)
Fixpoint move_forward_times (n : nat) : Py (list bool) :=
  match n with
  | O => mret []
  | S n' => moved ← Rover.move_forward;
            rest ← move_forward_times n';
            mret (moved :: rest)
  end.

(** A freshly built rover with nothing printed yet. *)
Definition start (x y : Z) (d : Direction) (g : Grid) : World :=
  mkWorld (Rover.init x y d g) [].

(** The mission of [demo.py]. *)
Definition demo_world : World :=
  start 0 0 North (Grid.init 10 10 (Some [(2, 2); (3, 5); (7, 8)])).

Definition demo_commands : list Command :=
  [MoveForward; MoveForward; TurnRight; MoveForward; MoveForward; TurnLeft;
   MoveForward].

(** [test_rover_blocked_by_obstacle] and [test_rover_blocked_by_boundary]. *)
Definition obstacle_world : World :=
  start 5 5 North (Grid.init 10 10 (Some [(5, 6)])).

Definition boundary_world : World :=
  start 0 0 South (Grid.init 10 10 None).

(** ** Grid rendering *)

Definition newline : string := String (Ascii.ascii_of_nat 10) EmptyString.

(** [s * n] on strings: the empty string when [n] is not positive. *)
Definition string_repeat (s : string) (n : Z) : string :=
  String.concat "" (replicate (Z.to_nat n) s).

(** [f"{n:2d}"]: [str(n)], padded with spaces on the left to two
    characters. *)
Definition format_2d (n : Z) : string :=
  string_repeat " " (2 - Z.of_nat (String.length (pretty n))) +:+ pretty n.

(** A statement list run once per element: [for v in l: body]. *)
Fixpoint for_each {A} (l : list A) (body : A → Py unit) : Py unit :=
  match l with
  | [] => mret tt
  | v :: rest => body v;; for_each rest body
  end.

(** [range(n)] and [range(n - 1, -1, -1)]. *)
Definition range (n : Z) : list Z := seqZ 0 n.
Definition range_down (n : Z) : list Z := reverse (seqZ 0 n).

Module GridVisualizer.

(** The [direction_symbols] dictionary literal. *)
Definition direction_symbols : gmap string string :=
  <["North" := "^"]> (<["East" := ">"]> (<["South" := "v"]> (<["West" := "<"]> ∅))).

(** [direction_symbols.get(str(rover.direction), "R")]. *)
Definition rover_symbol (the_rover : Rover) : string :=
  default "R" (direction_symbols !! Direction.str (direction the_rover)).

Definition rover_cell (symbol : string) : string :=
  "[bold green]" +:+ symbol +:+ "[/bold green]".
Definition obstacle_cell : string := "[red]X[/red]".
Definition path_cell : string := "[dim cyan].[/dim cyan]".
Definition empty_cell : string := "[dim].[/dim]".

(** The [if]/[elif] chain of the inner loop: what is appended to [row] for
    the cell [(cx, cy)]. *)
Definition cell (the_rover : Rover) (cx cy : Z) : string :=
  if bool_decide ((cx, cy) = (x the_rover, y the_rover)) then
    rover_cell (rover_symbol the_rover)
  else if bool_decide ((cx, cy) ∈ obstacles (grid the_rover)) then
    obstacle_cell
  else if bool_decide ((cx, cy) ∈ path_history the_rover) then
    path_cell
  else
    empty_cell.

(** The inner loop: [row] after [for x in range(grid.width)]. *)
Definition row (the_rover : Rover) (cy : Z) : list string :=
  (λ cx, cell the_rover cx cy) <$> range (width (grid the_rover)).

(** The line printed for one [y]. *)
Definition row_line (the_rover : Rover) (cy : Z) : string :=
  format_2d cy +:+ " | " +:+ String.concat " " (row the_rover cy).

Definition title : string :=
  newline +:+ "[bold cyan]=== MARS SURFACE GRID ===[/bold cyan]" +:+ newline.

Definition legend : string :=
  newline +:+
  "[dim]Legend: [bold green]^>v<[/bold green] Rover | [red]X[/red] Obstacle | [cyan].[/cyan] Path[/dim]"
  +:+ newline.

(** [GridVisualizer.display_grid(rover)]. *)
Definition display_grid : Py unit :=
  the_rover ← get_self;
  let the_grid := grid the_rover in
  console_print title;;
  for_each (range_down (height the_grid))
    (λ cy, console_print (row_line the_rover cy));;
  console_print ("   +" +:+ string_repeat "-" (width the_grid * 2));;
  let x_labels := "     " +:+ String.concat " " (pretty <$> range (width the_grid)) in
  console_print x_labels;;
  console_print legend.

End GridVisualizer.

(** ** Collecting and dispatching the user's commands *)

(** The five menu lines and the prompt that every round of [get_commands]
    shows before it reads a line. *)
Definition menu : list string :=
  [newline +:+ "[bold]Available Commands:[/bold]";
   "  [green]M[/green] - Move Forward";
   "  [yellow]L[/yellow] - Turn Left";
   "  [yellow]R[/yellow] - Turn Right";
   "  [red]Q[/red] - Quit and show final status";
   newline +:+ "[bold cyan]Enter command:[/bold cyan] "].

Definition invalid_command : string :=
  "[red]Invalid command. Please try again.[/red]".

(** How [get_commands] ends: it returns [command_strs], or [console.input]
    finds the input exhausted and its [EOFError], which the function does
    not catch, leaves it.  Either way [shown] is what was printed and
    [unread] the input lines not consumed. *)
Inductive Collected :=
| Returned (command_strs : list string) (unread : list string) (shown : list string)
| EOFError (shown : list string).

(** The [while True] loop of [get_commands], one round per input line.
    [upper] is [str.upper]; [lines] are the lines the user will type.  The
    [ValueError] raised for a line outside [M], [L], [R], [Q] is caught in
    the same round; its [logging.error] is not represented. *)
Fixpoint get_commands_loop (upper : string → string)
    (command_strs : list string) (lines : list string) (shown : list string) : Collected :=
  let shown := shown ++ menu in
  match lines with
  | [] => EOFError shown
  | line :: lines =>
      let command := upper line in
      if bool_decide (command ∉ ["M"; "L"; "R"; "Q"]) then
        get_commands_loop upper command_strs lines (shown ++ [invalid_command])
      else if bool_decide (command = "Q") then
        Returned command_strs lines shown
      else
        get_commands_loop upper (command_strs ++ [command]) lines shown
  end.

(** [get_commands()]. *)
Definition get_commands (upper : string → string) (lines : list string) : Collected :=
  get_commands_loop upper [] lines [].

(** [str.upper] on the letters a to z; every other character is kept. *)
Definition upper_ascii_char (c : Ascii.ascii) : Ascii.ascii :=
  let n := Ascii.nat_of_ascii c in
  if (97 <=? n)%nat && (n <=? 122)%nat then Ascii.ascii_of_nat (n - 32) else c.

Fixpoint upper_ascii (s : string) : string :=
  match s with
  | EmptyString => EmptyString
  | String c rest => String (upper_ascii_char c) (upper_ascii rest)
  end.

(** The [command_map] dictionary literal of [main]; [command()] builds the
    command object of the class found. *)
Definition command_map : gmap string Command :=
  <["M" := MoveForward]> (<["L" := TurnLeft]> (<["R" := TurnRight]> ∅)).

(** The command loop of [main] when telemetry is switched off:
    [for cmd_str in command_strs: try: ... except Exception: ...].  A
    [KeyError] from [command_map[cmd_str]] is caught and only logged, so the
    round ends there with nothing changed.  The handler has no other way
    in: [execute] and [display_grid] return normally in every state.  The
    [logging] calls are not represented. *)
Definition main_loop (command_strs : list string) : Py unit :=
  for_each command_strs
    (λ cmd_str,
       match command_map !! cmd_str with
       | None => mret tt
       | Some command =>
           Command.execute command;;
           GridVisualizer.display_grid
       end).

(** ** More vocabulary *)

(** All that [display_grid] prints, in order. *)
Definition picture (r : Rover) : list string :=
  [GridVisualizer.title] ++
  (GridVisualizer.row_line r <$> range_down (height (grid r))) ++
  ["   +" +:+ string_repeat "-" (width (grid r) * 2);
   "     " +:+ String.concat " " (pretty <$> range (width (grid r)));
   GridVisualizer.legend].

(** In the grid and not an obstacle. *)
Definition free (g : Grid) (c : Z * Z) : bool :=
  Grid.is_valid_position g c.1 c.2 && negb (Grid.has_obstacle g c.1 c.2).

(** One step apart along one axis. *)
Definition adjacent (p q : Z * Z) : Prop :=
  Z.abs (q.1 - p.1) + Z.abs (q.2 - p.2) = 1.

(** The heading a command leaves, whatever the rover's surroundings. *)
Definition steer (d : Direction) (c : Command) : Direction :=
  match c with
  | MoveForward => d
  | TurnLeft => Direction.turn_left d
  | TurnRight => Direction.turn_right d
  end.

Definition is_turn (c : Command) : bool :=
  match c with
  | MoveForward => false
  | TurnLeft | TurnRight => true
  end.

(** A list of cells in which each one is next to the one before, the
    first being next to [p]. *)
Fixpoint walk_from (p : Z * Z) (cells : list (Z * Z)) : Prop :=
  match cells with
  | [] => True
  | q :: rest => adjacent p q ∧ walk_from q rest
  end.

Definition is_walk (cells : list (Z * Z)) : Prop :=
  match cells with
  | [] => True
  | p :: rest => walk_from p rest
  end.

Fixpoint count_turns (commands : list Command) : Z :=
  match commands with
  | [] => 0
  | c :: rest => (if is_turn c then 1 else 0) + count_turns rest
  end.

(** [test_square_path]: forward and right, three times, and forward. *)
Definition square_commands : list Command :=
  [MoveForward; TurnRight; MoveForward; TurnRight; MoveForward; TurnRight;
   MoveForward].

(** * Properties *)

(** ** Unfolding the methods *)

(** [move_forward] written as one case analysis on its two guards. *)
Lemma move_forward_unfold (w : World) :
  Rover.move_forward w =
  let r := rover w in
  let c := candidate r in
  if negb (Grid.is_valid_position (grid r) c.1 c.2) then
    Ok (false, mkWorld r (console w ++ [warn_boundary]))
  else if Grid.has_obstacle (grid r) c.1 c.2 then
    Ok (false, mkWorld r (console w ++ [warn_obstacle]))
  else
    Ok (true, mkWorld (mkRover c.1 c.2 (direction r) (grid r)
                         (path_history r ++ [c]) (command_count r + 1))
                      (console w)).
Proof.
  unfold Rover.move_forward, candidate, mbind, Py_bind, py_bind, get_self.
  cbn beta iota zeta.
  destruct (Direction.move_forward _ _ _) as [nx ny]; cbn [fst snd].
  destruct (negb _); [reflexivity |].
  destruct (Grid.has_obstacle _ _ _); reflexivity.
Qed.

Lemma move_forward_blocked (w : World) :
  blocked (rover w) = true →
  ∃ line, Rover.move_forward w = Ok (false, mkWorld (rover w) (console w ++ [line])).
Proof.
  intros Hb. rewrite move_forward_unfold. cbn zeta. unfold blocked in Hb.
  destruct (negb _); [eauto |].
  cbn in Hb. rewrite Hb. eauto.
Qed.

Lemma move_forward_free (w : World) :
  blocked (rover w) = false →
  Rover.move_forward w =
  Ok (true, mkWorld (mkRover (candidate (rover w)).1 (candidate (rover w)).2
                       (direction (rover w)) (grid (rover w))
                       (path_history (rover w) ++ [candidate (rover w)])
                       (command_count (rover w) + 1))
                    (console w)).
Proof.
  intros Hb. rewrite move_forward_unfold. cbn zeta. unfold blocked in Hb.
  apply orb_false_iff in Hb as [-> ->]. reflexivity.
Qed.

Lemma turn_left_unfold (w : World) :
  Rover.turn_left w =
  Ok (tt, mkWorld (mkRover (x (rover w)) (y (rover w))
                     (Direction.turn_left (direction (rover w))) (grid (rover w))
                     (path_history (rover w)) (command_count (rover w) + 1))
                  (console w)).
Proof. reflexivity. Qed.

Lemma turn_right_unfold (w : World) :
  Rover.turn_right w =
  Ok (tt, mkWorld (mkRover (x (rover w)) (y (rover w))
                     (Direction.turn_right (direction (rover w))) (grid (rover w))
                     (path_history (rover w)) (command_count (rover w) + 1))
                  (console w)).
Proof. reflexivity. Qed.

(** What one dispatched command leaves behind, case by case. *)
Lemma execute_cases (c : Command) (w : World) :
  ∃ w', Command.execute c w = Ok (tt, w') ∧
    match c with
    | MoveForward =>
        if blocked (rover w) then rover w' = rover w
        else rover w' = mkRover (candidate (rover w)).1 (candidate (rover w)).2
                          (direction (rover w)) (grid (rover w))
                          (path_history (rover w) ++ [candidate (rover w)])
                          (command_count (rover w) + 1)
    | TurnLeft =>
        rover w' = mkRover (x (rover w)) (y (rover w))
                     (Direction.turn_left (direction (rover w))) (grid (rover w))
                     (path_history (rover w)) (command_count (rover w) + 1)
    | TurnRight =>
        rover w' = mkRover (x (rover w)) (y (rover w))
                     (Direction.turn_right (direction (rover w))) (grid (rover w))
                     (path_history (rover w)) (command_count (rover w) + 1)
    end.
Proof.
  destruct c; cbn [Command.execute].
  - unfold mbind, Py_bind, py_bind.
    destruct (blocked (rover w)) eqn:Hb.
    + destruct (move_forward_blocked w Hb) as [line ->]. eauto.
    + rewrite (move_forward_free w Hb). eauto.
  - rewrite turn_left_unfold. eauto.
  - rewrite turn_right_unfold. eauto.
Qed.

(** A property of the rover that every command keeps holds after any
    command sequence, and the sequence runs to its end. *)
Lemma run_commands_invariant (P : Rover → Prop) :
  (∀ c w w', P (rover w) → Command.execute c w = Ok (tt, w') → P (rover w')) →
  ∀ commands w, P (rover w) →
    ∃ w', run_commands commands w = Ok (tt, w') ∧ P (rover w').
Proof.
  intros Hstep commands.
  induction commands as [|c rest IH]; intros w HP.
  - exists w. split; [reflexivity | exact HP].
  - destruct (execute_cases c w) as (w1 & Hex & _).
    destruct (IH w1 (Hstep c w w1 HP Hex)) as (w2 & Hrun & HP2).
    exists w2. split; [| exact HP2].
    cbn [run_commands]. unfold mbind, Py_bind, py_bind. rewrite Hex. exact Hrun.
Qed.

(** [len(set(l))] against [len(l)], and what appending one cell does. *)
Lemma size_list_to_set_le (l : list (Z * Z)) :
  (size (list_to_set l : gset (Z * Z)) ≤ length l)%nat.
Proof.
  induction l as [|p l IH]; [reflexivity |].
  cbn [list_to_set length foldr].
  rewrite size_union_alt, size_singleton.
  pose proof (subseteq_size (list_to_set l ∖ {[p]}) (list_to_set l : gset (Z * Z))
                (subseteq_difference_l _ _ _ (reflexivity _))) as Hle.
  lia.
Qed.

Lemma size_list_to_set_snoc (l : list (Z * Z)) (p : Z * Z) :
  size (list_to_set (l ++ [p]) : gset (Z * Z)) =
  (size (list_to_set l : gset (Z * Z)) + (if bool_decide (p ∈ l) then 0 else 1))%nat.
Proof.
  rewrite list_to_set_app_L. cbn [list_to_set foldr].
  rewrite union_empty_r_L.
  case_bool_decide as Hin.
  - rewrite Nat.add_0_r. f_equal.
    apply set_eq. intros q. rewrite elem_of_union, elem_of_singleton, elem_of_list_to_set.
    split; [intros [Hq | ->]; assumption | left; assumption].
  - rewrite size_union, size_singleton; [reflexivity |].
    apply disjoint_singleton_r. rewrite elem_of_list_to_set. exact Hin.
Qed.

(** A blocked rover stays blocked however often it is told to move. *)
Lemma move_forward_times_blocked (n : nat) (w : World) :
  blocked (rover w) = true →
  ∃ w', move_forward_times n w = Ok (replicate n false, w') ∧ rover w' = rover w.
Proof.
  revert w. induction n as [|n IH]; intros w Hb.
  - exists w. split; reflexivity.
  - destruct (move_forward_blocked w Hb) as [line Hmove].
    destruct (IH (mkWorld (rover w) (console w ++ [line])) Hb) as (w' & Hrest & Hsame).
    exists w'. split; [| exact Hsame].
    cbn [move_forward_times replicate]. unfold mbind, Py_bind, py_bind.
    rewrite Hmove, Hrest. reflexivity.
Qed.

Lemma direction_map_unknown (key : string) :
  key ∉ ["N"; "E"; "S"; "W"] → direction_map !! key = None.
Proof.
  intros Hkey. unfold direction_map.
  rewrite !lookup_insert_ne, lookup_empty; [reflexivity | ..];
    intros <-; apply Hkey; set_solver.
Qed.

(** ** The heading algebra *)

(** C5: for every heading, [turn_left] and [turn_right] undo each other,
    four turns the same way come back to the heading, [turn_left] runs
    through North, West, South, East, North and [turn_right] through North,
    East, South, West, North. *)
Theorem turns_inverse_and_four_cycle (h : Direction) :
  Direction.turn_right (Direction.turn_left h) = h ∧
  Direction.turn_left (Direction.turn_right h) = h ∧
  Nat.iter 4 Direction.turn_left h = h ∧
  Nat.iter 4 Direction.turn_right h = h ∧
  Direction.turn_left <$> [North; West; South; East] = [West; South; East; North] ∧
  Direction.turn_right <$> [North; East; South; West] = [East; South; West; North].
Proof. destruct h; repeat split. Qed.

(** ** Turning *)

(** C7: [turn_left] and [turn_right] never fail; each replaces the heading
    by its left (right) neighbour, adds one to [command_count] and leaves
    the position and the path history as they were. *)
Theorem turns_always_succeed (w : World) :
  (∃ w', Rover.turn_left w = Ok (tt, w') ∧
     direction (rover w') = Direction.turn_left (direction (rover w)) ∧
     command_count (rover w') = command_count (rover w) + 1 ∧
     x (rover w') = x (rover w) ∧ y (rover w') = y (rover w) ∧
     path_history (rover w') = path_history (rover w)) ∧
  (∃ w', Rover.turn_right w = Ok (tt, w') ∧
     direction (rover w') = Direction.turn_right (direction (rover w)) ∧
     command_count (rover w') = command_count (rover w) + 1 ∧
     x (rover w') = x (rover w) ∧ y (rover w') = y (rover w) ∧
     path_history (rover w') = path_history (rover w)).
Proof.
  split.
  - rewrite turn_left_unfold. eexists. split; [reflexivity |]. repeat split.
  - rewrite turn_right_unfold. eexists. split; [reflexivity |]. repeat split.
Qed.

(** ** Moving forward *)

(** C3: when the candidate cell is inside the grid and holds no obstacle,
    [move_forward] returns [True], the rover stands on the candidate cell,
    the cell is appended to the path history, [command_count] grows by one,
    and the number of distinct cells visited grows by one if the cell is new
    to the history and stays the same otherwise. *)
Theorem move_forward_into_free_cell (w : World) :
  Grid.is_valid_position (grid (rover w))
    (candidate (rover w)).1 (candidate (rover w)).2 = true →
  Grid.has_obstacle (grid (rover w))
    (candidate (rover w)).1 (candidate (rover w)).2 = false →
  ∃ w', Rover.move_forward w = Ok (true, w') ∧
    (x (rover w'), y (rover w')) = candidate (rover w) ∧
    path_history (rover w') = path_history (rover w) ++ [candidate (rover w)] ∧
    command_count (rover w') = command_count (rover w) + 1 ∧
    cells_visited (Rover.get_status (rover w')) =
      cells_visited (Rover.get_status (rover w)) +
      (if bool_decide (candidate (rover w) ∈ path_history (rover w)) then 0 else 1).
Proof.
  intros Hvalid Hfree.
  assert (blocked (rover w) = false) as Hb
    by (unfold blocked; rewrite Hvalid, Hfree; reflexivity).
  rewrite (move_forward_free w Hb).
  eexists. split; [reflexivity |]. cbn [rover x y path_history command_count].
  repeat split.
  - destruct (candidate (rover w)); reflexivity.
  - unfold Rover.get_status. cbn [cells_visited path_history].
    rewrite size_list_to_set_snoc, Nat2Z.inj_add.
    destruct (bool_decide _); reflexivity.
Qed.

(** [test_rover_move_forward_success]: from (5,5) facing North on an open
    10x10 grid. *)
Lemma move_forward_into_free_cell_witness :
  ∃ w', Rover.move_forward (start 5 5 North (Grid.init 10 10 None)) = Ok (true, w') ∧
    (x (rover w'), y (rover w')) = (5, 6) ∧
    path_history (rover w') = [(5, 5); (5, 6)] ∧
    command_count (rover w') = 1 ∧
    cells_visited (Rover.get_status (rover w')) =
      cells_visited (Rover.get_status (Rover.init 5 5 North (Grid.init 10 10 None))) + 1.
Proof.
  exact (move_forward_into_free_cell (start 5 5 North (Grid.init 10 10 None))
           eq_refl eq_refl).
Defined.

(** C4: when the candidate cell is outside the grid or holds an obstacle,
    [move_forward] returns [False] without raising and the position stays;
    the same holds for any number of calls in a row. *)
Theorem blocked_move_is_rejected_every_time (w : World) (n : nat) :
  Grid.is_valid_position (grid (rover w))
    (candidate (rover w)).1 (candidate (rover w)).2 = false ∨
  Grid.has_obstacle (grid (rover w))
    (candidate (rover w)).1 (candidate (rover w)).2 = true →
  ∃ w', move_forward_times n w = Ok (replicate n false, w') ∧
    (x (rover w'), y (rover w')) = (x (rover w), y (rover w)).
Proof.
  intros Hguard.
  assert (blocked (rover w) = true) as Hb.
  { unfold blocked. destruct Hguard as [-> | ->]; [reflexivity | apply orb_true_r]. }
  destruct (move_forward_times_blocked n w Hb) as (w' & Hrun & Hsame).
  exists w'. split; [exact Hrun |]. rewrite Hsame. reflexivity.
Qed.

(** [test_rover_blocked_by_boundary]: one move from (0,0) facing South on an
    open 10x10 grid. *)
Lemma blocked_move_is_rejected_every_time_witness :
  ∃ w', move_forward_times 1 boundary_world = Ok ([false], w') ∧
    (x (rover w'), y (rover w')) = (0, 0).
Proof.
  exact (blocked_move_is_rejected_every_time boundary_world 1 (or_introl eq_refl)).
Defined.

(** C9: a move that returns [False] leaves every field of the rover as it
    was: position, heading, grid, path history and [command_count]. *)
Theorem rejected_move_keeps_rover (w w' : World) :
  Rover.move_forward w = Ok (false, w') → rover w' = rover w.
Proof.
  rewrite move_forward_unfold. cbn zeta.
  destruct (negb _); [intros [= <-]; reflexivity |].
  destruct (Grid.has_obstacle _ _ _); intros [= <-]. reflexivity.
Qed.

(** [test_rover_blocked_by_obstacle]: only the console changes. *)
Lemma rejected_move_keeps_rover_witness :
  rover (mkWorld (rover obstacle_world) [warn_obstacle]) = rover obstacle_world.
Proof.
  exact (rejected_move_keeps_rover obstacle_world
           (mkWorld (rover obstacle_world) [warn_obstacle]) eq_refl).
Defined.

(** ** Counting commands *)

(** C1, as the code has it: a turn and a move into a free cell add one to
    [command_count], a rejected move leaves it as it was; the blocked move
    of [test_rover_blocked_by_obstacle] ends with [command_count] 0. *)
Theorem command_count_per_command :
  (∀ (c : Command) (w : World),
     ∃ w', Command.execute c w = Ok (tt, w') ∧
       command_count (rover w') =
         command_count (rover w) +
         (match c with
          | MoveForward => if blocked (rover w) then 0 else 1
          | TurnLeft | TurnRight => 1
          end)) ∧
  (∃ w', Command.execute MoveForward obstacle_world = Ok (tt, w') ∧
     (x (rover w'), y (rover w')) = (5, 5) ∧
     command_count (rover w') = 0).
Proof.
  split.
  - intros c w. destruct (execute_cases c w) as (w' & Hex & Hcase).
    exists w'. split; [exact Hex |].
    destruct c; [destruct (blocked (rover w)) |..]; rewrite Hcase; cbn; lia.
  - eexists. split; [vm_compute; reflexivity |]. split; reflexivity.
Qed.

(** C1 as stated fails: after the blocked move of
    [test_rover_blocked_by_obstacle], [command_count] is not 1. *)
Lemma blocked_move_is_not_counted :
  ¬ ∃ w', Command.execute MoveForward obstacle_world = Ok (tt, w') ∧
      command_count (rover w') = 1.
Proof.
  intros (w' & Hrun & Hcount).
  vm_compute in Hrun. injection Hrun as <-. discriminate Hcount.
Qed.

(** ** The demo mission *)

(** C2, as the code has it: the fourth move of the demo runs into the
    obstacle at (2,2), so the mission ends at (1,3) facing North with
    [command_count] 6. *)
Theorem demo_mission_outcome :
  ∃ w', run_commands demo_commands demo_world = Ok (tt, w') ∧
    (x (rover w'), y (rover w')) = (1, 3) ∧
    direction (rover w') = North ∧
    command_count (rover w') = 6.
Proof. eexists. split; [vm_compute; reflexivity |]. repeat split. Qed.

(** C2 as stated fails: the demo does not end at (2,4) with
    [command_count] 7. *)
Lemma demo_mission_not_at_2_4 :
  ¬ ∃ w', run_commands demo_commands demo_world = Ok (tt, w') ∧
      (x (rover w'), y (rover w')) = (2, 4) ∧
      direction (rover w') = North ∧
      command_count (rover w') = 7.
Proof.
  intros (w' & Hrun & Hpos & _).
  vm_compute in Hrun. injection Hrun as <-. discriminate Hpos.
Qed.

(** ** Mission invariants *)

(** C6: after any command sequence run on a freshly built rover, the number
    of distinct cells visited is at most [command_count + 1], and no next
    command makes it smaller. *)
Theorem cells_visited_bounded_and_monotone
    (x0 y0 : Z) (d : Direction) (g : Grid) (printed : list string)
    (commands : list Command) :
  ∃ w, run_commands commands (mkWorld (Rover.init x0 y0 d g) printed) = Ok (tt, w) ∧
    cells_visited (Rover.get_status (rover w)) ≤
      commands_executed (Rover.get_status (rover w)) + 1 ∧
    ∀ c, ∃ w', Command.execute c w = Ok (tt, w') ∧
      cells_visited (Rover.get_status (rover w)) ≤
        cells_visited (Rover.get_status (rover w')).
Proof.
  destruct (run_commands_invariant
              (λ r, Z.of_nat (length (path_history r)) ≤ command_count r + 1))
    with (commands := commands) (w := mkWorld (Rover.init x0 y0 d g) printed)
    as (w & Hrun & Hlen).
  - intros c w w' Hinv Hex.
    destruct (execute_cases c w) as (w1 & Hex1 & Hcase).
    rewrite Hex in Hex1. injection Hex1 as <-.
    destruct c; [destruct (blocked (rover w)) |..]; rewrite Hcase;
      cbn [path_history command_count]; rewrite ?length_app; cbn [length]; lia.
  - cbn. lia.
  - exists w. split; [exact Hrun |]. split.
    + unfold Rover.get_status. cbn [cells_visited commands_executed].
      pose proof (size_list_to_set_le (path_history (rover w))). lia.
    + intros c. destruct (execute_cases c w) as (w' & Hex & Hcase).
      exists w'. split; [exact Hex |].
      unfold Rover.get_status. cbn [cells_visited].
      destruct c; [destruct (blocked (rover w)) |..]; rewrite Hcase;
        cbn [path_history]; rewrite ?size_list_to_set_snoc; lia.
Qed.

(** C10: after construction and after any command sequence, the path
    history is not empty and its last entry is the rover's position. *)
Theorem path_history_ends_at_position
    (x0 y0 : Z) (d : Direction) (g : Grid) (printed : list string)
    (commands : list Command) :
  ∃ w, run_commands commands (mkWorld (Rover.init x0 y0 d g) printed) = Ok (tt, w) ∧
    path_history (rover w) ≠ [] ∧
    last (path_history (rover w)) = Some (x (rover w), y (rover w)).
Proof.
  destruct (run_commands_invariant
              (λ r, last (path_history r) = Some (x r, y r)))
    with (commands := commands) (w := mkWorld (Rover.init x0 y0 d g) printed)
    as (w & Hrun & Hlast).
  - intros c w w' Hinv Hex.
    destruct (execute_cases c w) as (w1 & Hex1 & Hcase).
    rewrite Hex in Hex1. injection Hex1 as <-.
    destruct c; [destruct (blocked (rover w)) |..]; rewrite Hcase;
      cbn [path_history x y]; try exact Hinv.
    rewrite last_snoc. destruct (candidate (rover w)); reflexivity.
  - reflexivity.
  - exists w. split; [exact Hrun |]. split; [| exact Hlast].
    intros Hnil. rewrite Hnil in Hlast. discriminate Hlast.
Qed.

(** ** Building a rover from a configuration *)

(** C8: a ["start_direction"] that is none of the four heading letters makes
    [initialize_rover] raise [KeyError] on that token; no rover is built,
    with a default heading or any other. *)
Theorem unknown_heading_token_raises (config : Config.t) (token : string) :
  Config.start_direction (default Config.empty_rover (Config.rover config)) = Some token →
  token ∉ ["N"; "E"; "S"; "W"] →
  initialize_rover config = Raise (KeyError token) ∧
  ∀ r, initialize_rover config ≠ Ok r.
Proof.
  intros Htoken Hunknown.
  assert (initialize_rover config = Raise (KeyError token)) as Hraise.
  { unfold initialize_rover. cbn zeta. rewrite Htoken.
    change (default "N" (Some token)) with token.
    rewrite (direction_map_unknown token Hunknown). reflexivity. }
  split; [exact Hraise |]. intros r. rewrite Hraise. discriminate.
Qed.

(** A configuration whose rover section asks for heading ["X"]. *)
Lemma unknown_heading_token_raises_witness :
  let config := Config.mk None (Some (Config.mkRoverSection None None (Some "X"))) in
  initialize_rover config = Raise (KeyError "X") ∧
  ∀ r, initialize_rover config ≠ Ok r.
Proof.
  apply (unknown_heading_token_raises
           (Config.mk None (Some (Config.mkRoverSection None None (Some "X")))) "X").
  - reflexivity.
  - refine (bool_decide_unpack _ _). vm_compute. exact I.
Defined.

(** * Further properties of the code *)

(** ** Helper lemmas *)

Lemma blocked_free (r : Rover) : blocked r = negb (free (grid r) (candidate r)).
Proof.
  unfold blocked, free.
  destruct (Grid.is_valid_position _ _ _), (Grid.has_obstacle _ _ _); reflexivity.
Qed.

(** The line a rejected move prints: the bounds are checked first. *)
Lemma move_forward_blocked_line (w : World) :
  blocked (rover w) = true →
  Rover.move_forward w =
  Ok (false, mkWorld (rover w)
               (console w ++
                [if Grid.is_valid_position (grid (rover w))
                      (candidate (rover w)).1 (candidate (rover w)).2
                 then warn_obstacle else warn_boundary])).
Proof.
  intros Hb. rewrite move_forward_unfold. cbn zeta. unfold blocked in Hb.
  destruct (Grid.is_valid_position _ _ _); cbn [negb] in *; [| reflexivity].
  cbn in Hb. rewrite Hb. reflexivity.
Qed.

Lemma execute_move_blocked (w : World) :
  blocked (rover w) = true →
  ∃ line, (line = warn_boundary ∨ line = warn_obstacle) ∧
    Command.execute MoveForward w = Ok (tt, mkWorld (rover w) (console w ++ [line])).
Proof.
  intros Hb. cbn [Command.execute]. unfold mbind, Py_bind, py_bind.
  rewrite (move_forward_blocked_line w Hb).
  eexists. split; [| reflexivity].
  destruct (Grid.is_valid_position _ _ _); auto.
Qed.

Lemma execute_move_free (w : World) :
  blocked (rover w) = false →
  Command.execute MoveForward w =
  Ok (tt, mkWorld (mkRover (candidate (rover w)).1 (candidate (rover w)).2
                     (direction (rover w)) (grid (rover w))
                     (path_history (rover w) ++ [candidate (rover w)])
                     (command_count (rover w) + 1))
                  (console w)).
Proof.
  intros Hb. cbn [Command.execute]. unfold mbind, Py_bind, py_bind.
  rewrite (move_forward_free w Hb). reflexivity.
Qed.

Lemma run_commands_cons (c : Command) (rest : list Command) (w w1 : World) :
  Command.execute c w = Ok (tt, w1) →
  run_commands (c :: rest) w = run_commands rest w1.
Proof.
  intros Hex. cbn [run_commands]. unfold mbind, Py_bind, py_bind.
  rewrite Hex. reflexivity.
Qed.

Lemma adjacent_candidate (r : Rover) : adjacent (x r, y r) (candidate r).
Proof. unfold adjacent, candidate. destruct (direction r); cbn; lia. Qed.

Lemma last_cons_default {A} (a : A) (l : list A) :
  last (a :: l) = Some (default a (last l)).
Proof.
  revert a. induction l as [|b l IH]; intros a; [reflexivity |].
  rewrite last_cons_cons, IH. reflexivity.
Qed.

(** Everything a command sequence does to a world, in one statement: the
    cells [added] to the path history and the lines [warned] on the
    console. *)
Lemma run_commands_trace (commands : list Command) (w : World) :
  ∃ w' added warned,
    run_commands commands w = Ok (tt, w') ∧
    grid (rover w') = grid (rover w) ∧
    direction (rover w') = foldl steer (direction (rover w)) commands ∧
    path_history (rover w') = path_history (rover w) ++ added ∧
    (x (rover w'), y (rover w')) = default (x (rover w), y (rover w)) (last added) ∧
    Forall (λ c, free (grid (rover w)) c = true) added ∧
    walk_from (x (rover w), y (rover w)) added ∧
    command_count (rover w') =
      command_count (rover w) + Z.of_nat (length added) + count_turns commands ∧
    console w' = console w ++ warned ∧
    Forall (λ line, line = warn_boundary ∨ line = warn_obstacle) warned ∧
    Z.of_nat (length added) + Z.of_nat (length warned) + count_turns commands =
      Z.of_nat (length commands).
Proof.
  revert w. induction commands as [|c rest IH]; intros w.
  - exists w, [], []. cbn. rewrite !app_nil_r.
    repeat split; try reflexivity; try constructor; lia.
  - destruct c.
    + destruct (blocked (rover w)) eqn:Hb.
      * destruct (execute_move_blocked w Hb) as (line & Hline & Hex).
        destruct (IH (mkWorld (rover w) (console w ++ [line])))
          as (w' & added & warned & Hrun & Hg & Hd & Hp & Hxy & Hfree & Hwalk
              & Hcount & Hcon & Hwarned & Hlen).
        cbn [rover console] in *.
        exists w', added, (line :: warned).
        rewrite (run_commands_cons _ _ _ _ Hex).
        repeat split; try assumption.
        -- rewrite Hcon, <- app_assoc. reflexivity.
        -- constructor; assumption.
        -- cbn [count_turns is_turn length]. lia.
      * pose proof (execute_move_free w Hb) as Hex.
        destruct (IH (mkWorld (mkRover (candidate (rover w)).1 (candidate (rover w)).2
                                 (direction (rover w)) (grid (rover w))
                                 (path_history (rover w) ++ [candidate (rover w)])
                                 (command_count (rover w) + 1))
                              (console w)))
          as (w' & added & warned & Hrun & Hg & Hd & Hp & Hxy & Hfree & Hwalk
              & Hcount & Hcon & Hwarned & Hlen).
        cbn [rover console x y direction grid path_history command_count] in *.
        exists w', (candidate (rover w) :: added), warned.
        rewrite (run_commands_cons _ _ _ _ Hex).
        assert (((candidate (rover w)).1, (candidate (rover w)).2) = candidate (rover w))
          as Hpair by (destruct (candidate (rover w)); reflexivity).
        rewrite Hpair in *.
        repeat split; try assumption.
        -- rewrite Hp, <- app_assoc. reflexivity.
        -- rewrite last_cons_default. exact Hxy.
        -- constructor; [| assumption].
           rewrite blocked_free in Hb. apply negb_false_iff in Hb. exact Hb.
        -- apply adjacent_candidate.
        -- rewrite Hcount. cbn [count_turns is_turn length]. lia.
        -- cbn [count_turns is_turn length]. lia.
    + destruct (IH (mkWorld (mkRover (x (rover w)) (y (rover w))
                               (Direction.turn_left (direction (rover w)))
                               (grid (rover w)) (path_history (rover w))
                               (command_count (rover w) + 1))
                            (console w)))
        as (w' & added & warned & Hrun & Hg & Hd & Hp & Hxy & Hfree & Hwalk
            & Hcount & Hcon & Hwarned & Hlen).
      cbn [rover console x y direction grid path_history command_count] in *.
      exists w', added, warned.
      rewrite (run_commands_cons TurnLeft rest w _ (turn_left_unfold w)).
      repeat split; try assumption.
      * rewrite Hcount. cbn [count_turns is_turn]. lia.
      * cbn [count_turns is_turn length]. lia.
    + destruct (IH (mkWorld (mkRover (x (rover w)) (y (rover w))
                               (Direction.turn_right (direction (rover w)))
                               (grid (rover w)) (path_history (rover w))
                               (command_count (rover w) + 1))
                            (console w)))
        as (w' & added & warned & Hrun & Hg & Hd & Hp & Hxy & Hfree & Hwalk
            & Hcount & Hcon & Hwarned & Hlen).
      cbn [rover console x y direction grid path_history command_count] in *.
      exists w', added, warned.
      rewrite (run_commands_cons TurnRight rest w _ (turn_right_unfold w)).
      repeat split; try assumption.
      * rewrite Hcount. cbn [count_turns is_turn]. lia.
      * cbn [count_turns is_turn length]. lia.
Qed.

Lemma free_true (g : Grid) (c : Z * Z) :
  free g c = true ↔
  Grid.is_valid_position g c.1 c.2 = true ∧ Grid.has_obstacle g c.1 c.2 = false.
Proof.
  unfold free. rewrite andb_true_iff, negb_true_iff. reflexivity.
Qed.

(** ** Headings and steps *)

(** X1: a forward step changes one coordinate by one and keeps the other:
    the cell reached is next to the cell left, for every heading. *)
Theorem forward_step_is_unit (d : Direction) (x0 y0 : Z) :
  adjacent (x0, y0) (Direction.move_forward d x0 y0).
Proof. unfold adjacent. destruct d; cbn; lia. Qed.

(** X2: two left turns and two right turns give the same heading, and a
    step under that heading undoes a step under the original one. *)
Theorem turn_around_steps_back (d : Direction) (x0 y0 : Z) :
  Direction.turn_left (Direction.turn_left d) =
    Direction.turn_right (Direction.turn_right d) ∧
  Direction.move_forward (Direction.turn_left (Direction.turn_left d))
    (Direction.move_forward d x0 y0).1 (Direction.move_forward d x0 y0).2 = (x0, y0).
Proof. destruct d; cbn; split; f_equal; lia. Qed.

(** ** Rejected moves *)

(** X3: on a grid whose width or height is not positive no cell is valid,
    so every move is rejected and the rover stays as it is. *)
Theorem degenerate_grid_blocks_every_move (w : World) :
  width (grid (rover w)) ≤ 0 ∨ height (grid (rover w)) ≤ 0 →
  ∃ w', Rover.move_forward w = Ok (false, w') ∧ rover w' = rover w.
Proof.
  intros Hdim.
  assert (blocked (rover w) = true) as Hb.
  { unfold blocked, Grid.is_valid_position.
    destruct (candidate (rover w)) as [cx cy]. cbn [fst snd].
    destruct (Z.leb_spec 0 cx), (Z.ltb_spec cx (width (grid (rover w)))),
      (Z.leb_spec 0 cy), (Z.ltb_spec cy (height (grid (rover w))));
      cbn; try reflexivity; lia. }
  rewrite (move_forward_blocked_line w Hb). eexists. split; reflexivity.
Qed.

(** A rover on a grid of width 0. *)
Lemma degenerate_grid_blocks_every_move_witness :
  ∃ w', Rover.move_forward (start 0 0 North (Grid.init 0 5 None)) = Ok (false, w') ∧
    rover w' = rover (start 0 0 North (Grid.init 0 5 None)).
Proof.
  apply (degenerate_grid_blocks_every_move (start 0 0 North (Grid.init 0 5 None))).
  left. cbn. lia.
Defined.

(** X4: a rejected move prints exactly one line and the bounds are tested
    first: the boundary warning when the candidate cell is outside the grid
    (also when the obstacle list names that cell), the obstacle warning
    otherwise. *)
Theorem rejection_names_its_cause (w : World) :
  blocked (rover w) = true →
  Rover.move_forward w =
  Ok (false, mkWorld (rover w)
               (console w ++
                [if Grid.is_valid_position (grid (rover w))
                      (candidate (rover w)).1 (candidate (rover w)).2
                 then warn_obstacle else warn_boundary])).
Proof. exact (move_forward_blocked_line w). Qed.

(** An obstacle listed just outside the top edge: the boundary is what is
    reported. *)
Lemma rejection_names_its_cause_witness :
  Rover.move_forward (start 9 9 North (Grid.init 10 10 (Some [(9, 10)]))) =
  Ok (false, mkWorld (Rover.init 9 9 North (Grid.init 10 10 (Some [(9, 10)])))
               [warn_boundary]).
Proof.
  exact (rejection_names_its_cause
           (start 9 9 North (Grid.init 10 10 (Some [(9, 10)]))) eq_refl).
Defined.

(** ** Command sequences *)


(** X6: whatever the commands, every cell the rover enters is inside the
    grid and holds no obstacle: all entries of the path history after the
    first (the unchecked start) are such cells. *)
Theorem entered_cells_are_free
    (x0 y0 : Z) (d : Direction) (g : Grid) (printed : list string)
    (commands : list Command) :
  ∃ w', run_commands commands (mkWorld (Rover.init x0 y0 d g) printed) = Ok (tt, w') ∧
    Forall (λ c, Grid.is_valid_position g c.1 c.2 = true ∧
                 Grid.has_obstacle g c.1 c.2 = false)
           (drop 1 (path_history (rover w'))).
Proof.
  destruct (run_commands_trace commands (mkWorld (Rover.init x0 y0 d g) printed))
    as (w' & added & warned & Hrun & _ & _ & Hp & _ & Hfree & _).
  exists w'. split; [exact Hrun |].
  rewrite Hp. cbn [rover Rover.init path_history app drop].
  eapply Forall_impl; [exact Hfree |].
  intros c Hc. apply free_true. exact Hc.
Qed.

(** X7: a rover that starts on a valid, obstacle-free cell stands on such a
    cell after any command sequence. *)
Theorem position_stays_free
    (x0 y0 : Z) (d : Direction) (g : Grid) (printed : list string)
    (commands : list Command) :
  Grid.is_valid_position g x0 y0 = true →
  Grid.has_obstacle g x0 y0 = false →
  ∃ w', run_commands commands (mkWorld (Rover.init x0 y0 d g) printed) = Ok (tt, w') ∧
    Grid.is_valid_position g (x (rover w')) (y (rover w')) = true ∧
    Grid.has_obstacle g (x (rover w')) (y (rover w')) = false.
Proof.
  intros Hvalid Hclear.
  destruct (run_commands_trace commands (mkWorld (Rover.init x0 y0 d g) printed))
    as (w' & added & warned & Hrun & _ & _ & _ & Hxy & Hfree & _).
  exists w'. split; [exact Hrun |].
  cbn [rover Rover.init x y grid] in Hxy, Hfree.
  assert (free g (x (rover w'), y (rover w')) = true) as Hpos.
  { rewrite Hxy. destruct (last added) as [c|] eqn:Hlast; cbn.
    - rewrite Forall_forall in Hfree. apply Hfree.
      apply last_Some in Hlast as [l' ->]. set_solver.
    - apply free_true. split; assumption. }
  apply free_true in Hpos. exact Hpos.
Qed.

(** The demo mission starts on the free cell (0,0). *)
Lemma position_stays_free_witness :
  ∃ w', run_commands demo_commands demo_world = Ok (tt, w') ∧
    Grid.is_valid_position (Grid.init 10 10 (Some [(2, 2); (3, 5); (7, 8)]))
      (x (rover w')) (y (rover w')) = true ∧
    Grid.has_obstacle (Grid.init 10 10 (Some [(2, 2); (3, 5); (7, 8)]))
      (x (rover w')) (y (rover w')) = false.
Proof.
  exact (position_stays_free 0 0 North
           (Grid.init 10 10 (Some [(2, 2); (3, 5); (7, 8)])) [] demo_commands
           eq_refl eq_refl).
Defined.

(** X8: from any state, a command sequence leaves the grid as it is and
    only appends to the path history. *)
Theorem history_only_grows (commands : list Command) (w : World) :
  ∃ w', run_commands commands w = Ok (tt, w') ∧
    grid (rover w') = grid (rover w) ∧
    path_history (rover w) `prefix_of` path_history (rover w').
Proof.
  destruct (run_commands_trace commands w)
    as (w' & added & warned & Hrun & Hg & _ & Hp & _).
  exists w'. split; [exact Hrun |]. split; [exact Hg |].
  exists added. exact Hp.
Qed.

(** X9: from any state, [command_count] grows by the number of cells
    appended to the path history plus the number of turn commands. *)
Theorem command_count_is_moves_plus_turns (commands : list Command) (w : World) :
  ∃ w', run_commands commands w = Ok (tt, w') ∧
    command_count (rover w') - command_count (rover w) =
      (Z.of_nat (length (path_history (rover w'))) -
       Z.of_nat (length (path_history (rover w)))) + count_turns commands.
Proof.
  destruct (run_commands_trace commands w)
    as (w' & added & warned & Hrun & _ & _ & Hp & _ & _ & _ & Hcount & _).
  exists w'. split; [exact Hrun |].
  rewrite Hp, Hcount, length_app. lia.
Qed.

(** X10: from any state, the console only gains warnings, one per command
    that [command_count] did not count. *)
Theorem console_gains_one_warning_per_rejection (commands : list Command) (w : World) :
  ∃ w' warned, run_commands commands w = Ok (tt, w') ∧
    console w' = console w ++ warned ∧
    Forall (λ line, line = warn_boundary ∨ line = warn_obstacle) warned ∧
    Z.of_nat (length warned) =
      Z.of_nat (length commands) - (command_count (rover w') - command_count (rover w)).
Proof.
  destruct (run_commands_trace commands w)
    as (w' & added & warned & Hrun & _ & _ & _ & _ & _ & _ & Hcount & Hcon & Hwarned & Hlen).
  exists w', warned. split; [exact Hrun |]. split; [exact Hcon |].
  split; [exact Hwarned |]. lia.
Qed.

(** X11: the path history of a freshly built rover is a walk: each entry
    is one step along one axis from the entry before. *)
Theorem path_history_is_a_walk
    (x0 y0 : Z) (d : Direction) (g : Grid) (printed : list string)
    (commands : list Command) :
  ∃ w', run_commands commands (mkWorld (Rover.init x0 y0 d g) printed) = Ok (tt, w') ∧
    is_walk (path_history (rover w')).
Proof.
  destruct (run_commands_trace commands (mkWorld (Rover.init x0 y0 d g) printed))
    as (w' & added & warned & Hrun & _ & _ & Hp & _ & _ & Hwalk & _).
  exists w'. split; [exact Hrun |].
  rewrite Hp. exact Hwalk.
Qed.

(** X12: the heading after a command sequence is the start heading turned
    by the turn commands in order; moves, accepted or rejected, and the
    grid have no part in it. *)
Theorem heading_follows_the_turns (commands : list Command) (w : World) :
  ∃ w', run_commands commands w = Ok (tt, w') ∧
    direction (rover w') = foldl steer (direction (rover w)) commands.
Proof.
  destruct (run_commands_trace commands w)
    as (w' & added & warned & Hrun & _ & Hd & _).
  exists w'. split; [exact Hrun | exact Hd].
Qed.

(** ** The square path *)

Lemma size_list_to_set_one (p : Z * Z) : size (list_to_set [p] : gset (Z * Z)) = 1%nat.
Proof. cbn [list_to_set foldr]. rewrite union_empty_r_L. apply size_singleton. Qed.

(** One accepted move at the head of a command list. *)
Lemma run_commands_move_free (rest : list Command) (w : World) :
  free (grid (rover w)) (candidate (rover w)) = true →
  run_commands (MoveForward :: rest) w =
  run_commands rest
    (mkWorld (mkRover (candidate (rover w)).1 (candidate (rover w)).2
                (direction (rover w)) (grid (rover w))
                (path_history (rover w) ++ [candidate (rover w)])
                (command_count (rover w) + 1))
             (console w)).
Proof.
  intros Hfree. apply run_commands_cons, execute_move_free.
  rewrite blocked_free, Hfree. reflexivity.
Qed.

(** X13: [test_square_path] from any start: when the start cell and the
    three other corners of the unit square to the front and right are free,
    forward and right three times and forward again brings a fresh rover
    back to its start, facing left of its first heading, with 7 commands
    counted, 4 distinct cells visited and nothing printed. *)
Theorem square_path_returns
    (x0 y0 : Z) (d : Direction) (g : Grid) (printed : list string) :
  let c1 := Direction.move_forward d x0 y0 in
  let c2 := Direction.move_forward (Direction.turn_right d) c1.1 c1.2 in
  let c3 := Direction.move_forward
              (Direction.turn_right (Direction.turn_right d)) c2.1 c2.2 in
  free g (x0, y0) = true → free g c1 = true → free g c2 = true → free g c3 = true →
  ∃ w', run_commands square_commands (mkWorld (Rover.init x0 y0 d g) printed) =
          Ok (tt, w') ∧
    (x (rover w'), y (rover w')) = (x0, y0) ∧
    direction (rover w') = Direction.turn_left d ∧
    command_count (rover w') = 7 ∧
    cells_visited (Rover.get_status (rover w')) = 4 ∧
    console w' = printed.
Proof.
  intros c1 c2 c3 H0 H1 H2 H3. subst c1 c2 c3.
  unfold square_commands.
  assert (∀ a b : Z, a + b - b = a) as Hadd by (intros; lia).
  assert (∀ a b : Z, a - b + b = a) as Hsub by (intros; lia).
  destruct d; cbn [Direction.move_forward Direction.turn_right fst snd] in H1, H2, H3;
    (rewrite run_commands_move_free; [| exact H1]);
    cbn [rover x y direction grid path_history command_count console candidate
         Rover.init Direction.move_forward fst snd];
    erewrite (run_commands_cons TurnRight) by apply turn_right_unfold;
    cbn [rover x y direction grid path_history command_count console
         Direction.turn_right];
    (rewrite run_commands_move_free; [| exact H2]);
    cbn [rover x y direction grid path_history command_count console candidate
         Direction.move_forward fst snd];
    erewrite (run_commands_cons TurnRight) by apply turn_right_unfold;
    cbn [rover x y direction grid path_history command_count console
         Direction.turn_right];
    (rewrite run_commands_move_free; [| exact H3]);
    cbn [rover x y direction grid path_history command_count console candidate
         Direction.move_forward fst snd];
    erewrite (run_commands_cons TurnRight) by apply turn_right_unfold;
    cbn [rover x y direction grid path_history command_count console
         Direction.turn_right];
    (rewrite run_commands_move_free;
       [| cbn [rover x y direction grid candidate Direction.move_forward fst snd];
          rewrite ?Hadd, ?Hsub; exact H0]);
    cbn [rover x y direction grid path_history command_count console candidate
         Direction.move_forward fst snd];
    (eexists; split; [reflexivity |]);
    cbn [rover x y direction command_count console Direction.turn_left];
    rewrite ?Hadd, ?Hsub;
    (repeat split; try reflexivity);
    unfold Rover.get_status; cbn [cells_visited path_history];
    rewrite !size_list_to_set_snoc, size_list_to_set_one;
    rewrite (bool_decide_eq_true_2 ((x0, y0) ∈ _)) by (set_unfold; tauto);
    rewrite !bool_decide_eq_false_2;
    try reflexivity;
    set_unfold; intros Hin; intuition (simplify_eq; lia).
Qed.

(** [test_square_path]: from (5,5) facing North on an open 10x10 grid. *)
Lemma square_path_returns_witness :
  ∃ w', run_commands square_commands (start 5 5 North (Grid.init 10 10 None)) =
          Ok (tt, w') ∧
    (x (rover w'), y (rover w')) = (5, 5) ∧
    direction (rover w') = West ∧
    command_count (rover w') = 7 ∧
    cells_visited (Rover.get_status (rover w')) = 4 ∧
    console w' = [].
Proof.
  exact (square_path_returns 5 5 North (Grid.init 10 10 None) []
           eq_refl eq_refl eq_refl eq_refl).
Defined.

(** ** Building a rover, continued *)



(** X15: a rover that [initialize_rover] builds is fresh and stands where
    the configuration says, checked against nothing: no command counted, a
    path history holding just the start cell, the configured grid size, and
    a heading whose printed name begins with the configured letter. *)
Theorem initialize_rover_builds_fresh_rover (config : Config.t) (r : Rover) :
  initialize_rover config = Ok r →
  let grid_config := default Config.empty_grid (Config.grid config) in
  let rover_config := default Config.empty_rover (Config.rover config) in
  (x r, y r) = (default 0 (Config.start_x rover_config),
                default 0 (Config.start_y rover_config)) ∧
  path_history r = [(x r, y r)] ∧
  command_count r = 0 ∧
  grid r = mkGrid (default 10 (Config.width grid_config))
                  (default 10 (Config.height grid_config))
                  (default [] (Config.obstacles grid_config)) ∧
  String.substring 0 1 (Direction.str (direction r)) =
    default "N" (Config.start_direction rover_config).
Proof.
  unfold initialize_rover. cbn zeta.
  set (key := default "N" _).
  intros Hr.
  destruct (decide (key ∈ ["N"; "E"; "S"; "W"])) as [Hin | Hout].
  - set_unfold in Hin.
    destruct Hin as [Hk | [Hk | [Hk | [Hk | []]]]]; rewrite Hk in *;
      vm_compute in Hr; injection Hr as <-; repeat split.
  - rewrite (direction_map_unknown key Hout) in Hr. discriminate Hr.
Qed.

(** A rover configured to start outside its 3x3 grid, facing West. *)
Lemma initialize_rover_builds_fresh_rover_witness :
  (x (Rover.init 7 (-2) West (mkGrid 3 3 [])), y (Rover.init 7 (-2) West (mkGrid 3 3 []))) =
    (7, -2) ∧
  path_history (Rover.init 7 (-2) West (mkGrid 3 3 [])) = [(7, -2)] ∧
  command_count (Rover.init 7 (-2) West (mkGrid 3 3 [])) = 0 ∧
  grid (Rover.init 7 (-2) West (mkGrid 3 3 [])) = mkGrid 3 3 [] ∧
  String.substring 0 1 (Direction.str West) = "W".
Proof.
  exact (initialize_rover_builds_fresh_rover
           (Config.mk (Some (Config.mkGridSection (Some 3) (Some 3) None))
                      (Some (Config.mkRoverSection (Some 7) (Some (-2)) (Some "W"))))
           (Rover.init 7 (-2) West (mkGrid 3 3 [])) eq_refl).
Defined.

(** ** Drawing the grid *)

Lemma for_each_print {A} (l : list A) (line : A → string) (w : World) :
  for_each l (λ v, console_print (line v)) w =
  Ok (tt, mkWorld (rover w) (console w ++ (line <$> l))).
Proof.
  revert w. induction l as [|v l IH]; intros w.
  - cbn. rewrite app_nil_r. destruct w; reflexivity.
  - cbn [for_each]. unfold mbind, Py_bind, py_bind. cbn [console_print].
    rewrite IH. cbn [rover console fmap list_fmap]. rewrite <- app_assoc. reflexivity.
Qed.

Lemma display_grid_unfold (w : World) :
  GridVisualizer.display_grid w = Ok (tt, mkWorld (rover w) (console w ++ picture (rover w))).
Proof.
  unfold GridVisualizer.display_grid, picture, mbind, Py_bind, py_bind, get_self.
  cbn [console_print rover console]. rewrite for_each_print.
  unfold console_print. cbn [rover console]. rewrite <- !app_assoc. reflexivity.
Qed.

Lemma range_down_lookup (n : Z) (i : nat) :
  Z.of_nat i < n → range_down n !! i = Some (n - 1 - Z.of_nat i).
Proof.
  intros Hi. unfold range_down.
  rewrite reverse_lookup by (rewrite length_seqZ; lia).
  rewrite length_seqZ, lookup_seqZ_lt by lia. f_equal. lia.
Qed.

(** X16: the symbol drawn for the rover is one of the four arrows, a
    different one for each heading; the fallback ["R"] of the dictionary
    lookup is never used. *)
Theorem rover_symbol_is_an_arrow (r : Rover) :
  GridVisualizer.rover_symbol r =
  match direction r with
  | North => "^"
  | East => ">"
  | South => "v"
  | West => "<"
  end.
Proof.
  unfold GridVisualizer.rover_symbol. destruct (direction r); vm_compute; reflexivity.
Qed.


(** X18: the rows are printed from the top: the line after the title is
    the row of [y = height - 1], and the [i]-th row line below it is the
    row of [y = height - 1 - i], labelled with that number. *)
Theorem display_grid_rows_run_downwards (w : World) (i : nat) :
  Z.of_nat i < height (grid (rover w)) →
  ∃ lines, GridVisualizer.display_grid w = Ok (tt, mkWorld (rover w) (console w ++ lines)) ∧
    lines !! S i =
      Some (format_2d (height (grid (rover w)) - 1 - Z.of_nat i) +:+ " | " +:+
            String.concat " "
              (GridVisualizer.row (rover w) (height (grid (rover w)) - 1 - Z.of_nat i))).
Proof.
  intros Hi. exists (picture (rover w)). split; [apply display_grid_unfold |].
  unfold picture.
  rewrite lookup_app_r by (cbn [length]; lia).
  replace (S i - length [GridVisualizer.title])%nat with i by (cbn [length]; lia).
  rewrite lookup_app_l
    by (rewrite length_fmap; unfold range_down; rewrite length_reverse, length_seqZ; lia).
  rewrite list_lookup_fmap, (range_down_lookup _ _ Hi). reflexivity.
Qed.

(** On a 3x2 grid the second row line is the row of [y = 0]. *)
Lemma display_grid_rows_run_downwards_witness :
  ∃ lines,
    GridVisualizer.display_grid (start 1 1 East (Grid.init 3 2 (Some [(0, 0)]))) =
      Ok (tt, mkWorld (Rover.init 1 1 East (Grid.init 3 2 (Some [(0, 0)]))) ([] ++ lines)) ∧
    lines !! 2%nat =
      Some (format_2d (2 - 1 - 1) +:+ " | " +:+
            String.concat " "
              (GridVisualizer.row (Rover.init 1 1 East (Grid.init 3 2 (Some [(0, 0)])))
                 (2 - 1 - 1))).
Proof.
  apply (display_grid_rows_run_downwards
           (start 1 1 East (Grid.init 3 2 (Some [(0, 0)]))) 1).
  cbn. lia.
Defined.

(** X19: what a cell shows follows the order rover, obstacle, path: the
    rover's marker exactly on the rover's cell, the obstacle marker exactly
    on listed obstacles the rover does not stand on, the path marker exactly
    on visited cells that are neither. *)
Theorem cell_shows_rover_then_obstacle_then_path (r : Rover) (cx cy : Z) :
  (GridVisualizer.cell r cx cy = GridVisualizer.rover_cell (GridVisualizer.rover_symbol r)
     ↔ (cx, cy) = (x r, y r)) ∧
  (GridVisualizer.cell r cx cy = GridVisualizer.obstacle_cell
     ↔ (cx, cy) ≠ (x r, y r) ∧ (cx, cy) ∈ obstacles (grid r)) ∧
  (GridVisualizer.cell r cx cy = GridVisualizer.path_cell
     ↔ (cx, cy) ≠ (x r, y r) ∧ ((cx, cy) ∉ obstacles (grid r)) ∧
       (cx, cy) ∈ path_history r).
Proof.
  unfold GridVisualizer.cell.
  repeat case_bool_decide; destruct (direction r);
    (split; [| split]); split; try discriminate; try tauto; intros; try tauto.
Qed.

(** ** Reading and dispatching the user's commands *)

Lemma get_commands_loop_quit (upper : string → string)
    (before : list string) (quit : string) (rest : list string) :
  upper quit = "Q" →
  Forall (λ line, upper line ≠ "Q") before →
  ∀ command_strs shown, ∃ shown',
    get_commands_loop upper command_strs (before ++ quit :: rest) shown =
    Returned (command_strs ++ filter (λ c, c ∈ ["M"; "L"; "R"]) (upper <$> before))
             rest shown'.
Proof.
  intros Hquit Hbefore.
  induction Hbefore as [|line before Hline _ IH]; intros command_strs shown.
  - cbn [app get_commands_loop fmap list_fmap filter list_filter]. rewrite Hquit.
    rewrite (bool_decide_eq_false_2 (_ ∉ _))
      by (intros Hout; apply Hout; repeat constructor).
    rewrite bool_decide_eq_true_2 by reflexivity.
    rewrite app_nil_r. eauto.
  - cbn [app get_commands_loop fmap list_fmap].
    destruct (decide (upper line ∈ ["M"; "L"; "R"])) as [Hin | Hout].
    + rewrite (bool_decide_eq_false_2 (_ ∉ _))
        by (intros Hout; apply Hout; set_unfold; set_unfold in Hin; tauto).
      rewrite bool_decide_eq_false_2 by exact Hline.
      rewrite filter_cons_True by exact Hin.
      destruct (IH (command_strs ++ [upper line]) (shown ++ menu)) as [shown' ->].
      rewrite <- app_assoc. eauto.
    + rewrite (bool_decide_eq_true_2 (_ ∉ _)) by (set_unfold; set_unfold in Hout; tauto).
      rewrite filter_cons_False by exact Hout.
      apply IH.
Qed.

Lemma get_commands_loop_eof (upper : string → string) (lines : list string) :
  Forall (λ line, upper line ≠ "Q") lines →
  ∀ command_strs shown, ∃ shown',
    get_commands_loop upper command_strs lines shown = EOFError shown'.
Proof.
  intros Hlines.
  induction Hlines as [|line lines Hline _ IH]; intros command_strs shown.
  - cbn. eauto.
  - cbn [get_commands_loop].
    destruct (bool_decide (upper line ∉ _)); [apply IH |].
    rewrite bool_decide_eq_false_2 by exact Hline. apply IH.
Qed.

Lemma get_commands_loop_known (upper : string → string) (lines : list string) :
  ∀ command_strs shown result unread shown',
    Forall (λ c, c ∈ ["M"; "L"; "R"]) command_strs →
    get_commands_loop upper command_strs lines shown = Returned result unread shown' →
    Forall (λ c, c ∈ ["M"; "L"; "R"]) result.
Proof.
  induction lines as [|line lines IH]; intros command_strs shown result unread shown' Hacc.
  - cbn. discriminate.
  - cbn [get_commands_loop].
    case_bool_decide as Hvalid; [apply IH; exact Hacc |].
    case_bool_decide as Hquit; [intros [= <- _ _]; exact Hacc |].
    apply IH. apply Forall_app. split; [exact Hacc |].
    constructor; [| constructor].
    set_unfold in Hvalid. set_unfold. tauto.
Qed.

(** X20: when the user types a line that upper-cases to Q, [get_commands]
    returns the upper-cased lines typed before the first such line that are
    M, L or R, in the order typed; every other line is dropped, and the
    lines after the Q are not read. *)
Theorem get_commands_returns_valid_lines_before_quit
    (upper : string → string) (before : list string) (quit : string)
    (rest : list string) :
  upper quit = "Q" →
  Forall (λ line, upper line ≠ "Q") before →
  ∃ shown,
    get_commands upper (before ++ quit :: rest) =
    Returned (filter (λ c, c ∈ ["M"; "L"; "R"]) (upper <$> before)) rest shown.
Proof.
  intros Hquit Hbefore.
  exact (get_commands_loop_quit upper before quit rest Hquit Hbefore [] []).
Qed.

(** The user types m, x, L, q and r. *)
Lemma get_commands_returns_valid_lines_before_quit_witness :
  ∃ shown,
    get_commands upper_ascii (["m"; "x"; "L"] ++ "q" :: ["r"]) =
    Returned (filter (λ c, c ∈ ["M"; "L"; "R"]) (upper_ascii <$> ["m"; "x"; "L"]))
             ["r"] shown.
Proof.
  apply (get_commands_returns_valid_lines_before_quit upper_ascii ["m"; "x"; "L"] "q" ["r"]).
  - reflexivity.
  - repeat constructor; vm_compute; discriminate.
Defined.

(** X21: when the input ends before any line upper-cases to Q,
    [get_commands] does not return what was collected: the [EOFError] of
    [console.input] leaves the function. *)
Theorem get_commands_without_quit_hits_eof
    (upper : string → string) (lines : list string) :
  Forall (λ line, upper line ≠ "Q") lines →
  ∃ shown, get_commands upper lines = EOFError shown.
Proof.
  intros Hlines. exact (get_commands_loop_eof upper lines Hlines [] []).
Qed.

(** The user types m and x, and the input ends. *)
Lemma get_commands_without_quit_hits_eof_witness :
  ∃ shown, get_commands upper_ascii ["m"; "x"] = EOFError shown.
Proof.
  apply (get_commands_without_quit_hits_eof upper_ascii ["m"; "x"]).
  repeat constructor; vm_compute; discriminate.
Defined.

(** X22: every string [get_commands] returns is a key of [command_map], so
    the subscript [command_map[cmd_str]] in the loop of [main] never raises
    [KeyError] on what the user entered. *)
Theorem collected_commands_are_dispatchable
    (upper : string → string) (lines command_strs unread shown : list string) :
  get_commands upper lines = Returned command_strs unread shown →
  Forall (λ cmd_str, is_Some (command_map !! cmd_str)) command_strs.
Proof.
  intros Hget.
  eapply Forall_impl.
  - eapply (get_commands_loop_known upper lines [] []); [constructor | exact Hget].
  - intros c Hc. set_unfold in Hc.
    destruct Hc as [-> | [-> | [-> | []]]]; vm_compute; eauto.
Qed.

(** The user types m, x, L, q. *)
Lemma collected_commands_are_dispatchable_witness :
  Forall (λ cmd_str, is_Some (command_map !! cmd_str)) ["M"; "L"].
Proof.
  refine (collected_commands_are_dispatchable upper_ascii ["m"; "x"; "L"; "q"]
            ["M"; "L"] [] _ _).
  vm_compute. reflexivity.
Defined.

Lemma execute_depends_on_rover (c : Command) (w1 w2 w1' w2' : World) :
  rover w1 = rover w2 →
  Command.execute c w1 = Ok (tt, w1') →
  Command.execute c w2 = Ok (tt, w2') →
  rover w1' = rover w2'.
Proof.
  intros Hsame Hex1 Hex2.
  destruct (execute_cases c w1) as (v1 & Hv1 & Hcase1).
  destruct (execute_cases c w2) as (v2 & Hv2 & Hcase2).
  rewrite Hex1 in Hv1. injection Hv1 as <-.
  rewrite Hex2 in Hv2. injection Hv2 as <-.
  rewrite Hsame in Hcase1.
  destruct c; [destruct (blocked (rover w2)) |..]; congruence.
Qed.

Lemma main_loop_follows_run_commands (command_strs : list string) :
  ∀ w1 w2, rover w1 = rover w2 →
    ∃ w1' w2',
      main_loop command_strs w1 = Ok (tt, w1') ∧
      run_commands (omap (λ cmd_str, command_map !! cmd_str) command_strs) w2 =
        Ok (tt, w2') ∧
      rover w1' = rover w2'.
Proof.
  induction command_strs as [|cmd_str rest IH]; intros w1 w2 Hsame.
  - exists w1, w2. repeat split. exact Hsame.
  - unfold main_loop in *. cbn [for_each omap list_omap].
    unfold mbind at 1, Py_bind at 1, py_bind at 1.
    destruct (command_map !! cmd_str) as [c |].
    + destruct (execute_cases c w1) as (v1 & Hv1 & _).
      destruct (execute_cases c w2) as (v2 & Hv2 & _).
      unfold mbind at 1, Py_bind at 1, py_bind at 1.
      rewrite Hv1, display_grid_unfold, (run_commands_cons c _ w2 v2 Hv2).
      apply IH. cbn [rover].
      exact (execute_depends_on_rover c w1 w2 v1 v2 Hsame Hv1 Hv2).
    + cbn [mret Py_ret py_ret]. apply IH. exact Hsame.
Qed.

(** X23: the command loop of [main] never raises and, for the rover, is
    [run_commands] on the commands that [command_map] knows: strings that
    are not keys are skipped, and drawing the grid after each command
    changes nothing of the rover. *)
Theorem main_loop_runs_the_known_commands (command_strs : list string) (w : World) :
  ∃ w' w'',
    main_loop command_strs w = Ok (tt, w') ∧
    run_commands (omap (λ cmd_str, command_map !! cmd_str) command_strs) w =
      Ok (tt, w'') ∧
    rover w' = rover w''.
Proof. exact (main_loop_follows_run_commands command_strs w w eq_refl). Qed.

(** ** Status *)

(** X24: after any command sequence on a freshly built rover the status
    reports at least one visited cell and at most as many as the path
    history has entries. *)
Theorem cells_visited_between_one_and_path_length
    (x0 y0 : Z) (d : Direction) (g : Grid) (printed : list string)
    (commands : list Command) :
  ∃ w', run_commands commands (mkWorld (Rover.init x0 y0 d g) printed) = Ok (tt, w') ∧
    1 ≤ cells_visited (Rover.get_status (rover w')) ≤
      Z.of_nat (length (path_history (rover w'))).
Proof.
  destruct (run_commands_trace commands (mkWorld (Rover.init x0 y0 d g) printed))
    as (w' & added & warned & Hrun & _ & _ & Hp & _).
  exists w'. split; [exact Hrun |].
  unfold Rover.get_status. cbn [cells_visited].
  pose proof (size_list_to_set_le (path_history (rover w'))) as Hle.
  split; [| lia].
  rewrite Hp. cbn [rover Rover.init path_history app list_to_set foldr].
  pose proof (subseteq_size ({[(x0, y0)]} : gset (Z * Z))
                ({[(x0, y0)]} ∪ list_to_set added)
                (union_subseteq_l _ _)) as Hone.
  rewrite size_singleton in Hone. lia.
Qed.
